(** * sc-compression: signature detection and LZMA header adaptation

    A shallow embedding of the two Python modules of the package,
    [sc_compression/__init__.py] (module [Init] below) and
    [sc_compression/ScCompression.py] (module [ScCompressionPy] below),
    together with the fragment of the Python runtime they call
    (slicing, [int.from_bytes], [bytes.hex], [bytes.decode], [str(bytes)],
    [str.lower], [open]).  The LZMA decoder itself is external. *)

From Stdlib Require Import ZArith Lia Bool.
From Stdlib.Strings Require Import Byte Ascii String.
From stdpp Require Import gmap strings list.

Local Open Scope Z_scope.

(** ** Python values *)

(** [bytes] objects are sequences of octets, [str] objects are sequences of
    Unicode code points. *)
Abbreviation bytes := (list byte).
Abbreviation str := (list Z).

Definition ord (b : byte) : Z := Z.of_N (Byte.to_N b).

(** A [str] literal. *)
Definition lit (s : string) : str :=
  map (fun a => Z.of_N (N_of_ascii a)) (list_ascii_of_string s).

Definition str_eq (a b : str) : bool := bool_decide (a = b).

(** [b[i:j]] for non-negative constant bounds: positions past the end are
    silently dropped, the slice never raises. *)
Definition slice (i j : nat) (b : bytes) : bytes := take (j - i) (drop i b).

(** ** [int.from_bytes] *)

Inductive byteorder := big | little.

(** Value of a byte sequence whose least significant byte comes first. *)
Fixpoint le_value (bs : bytes) : Z :=
  match bs with
  | [] => 0
  | b :: r => ord b + 256 * le_value r
  end.

(** [int.from_bytes(bs, order, signed=signed)]: the empty sequence is 0; with
    [signed] the value is read in two's complement on [8 * len(bs)] bits. *)
Definition int_from_bytes (bs : bytes) (order : byteorder) (signed : bool) : Z :=
  let u := le_value (match order with big => rev bs | little => bs end) in
  let m := 256 ^ Z.of_nat (length bs) in
  if signed && (m <=? 2 * u) then u - m else u.

(** ** [bytes.hex] *)

Definition hexdigit (n : Z) : Z := if n <? 10 then 48 + n else 87 + n.

Definition hex_byte (b : byte) : str :=
  [hexdigit (ord b / 16); hexdigit (ord b mod 16)].

Definition hex (b : bytes) : str := flat_map hex_byte b.

(** ** [bytes.decode("utf-8")] (strict error handler)

    [None] stands for [UnicodeDecodeError]: a stray continuation byte, an
    overlong form, a surrogate, a code point above U+10FFFF, or a sequence
    cut short by the end of the input. *)

Definition is_cont (b : byte) : bool := (128 <=? ord b) && (ord b <=? 191).
Definition in_range (lo hi : Z) (b : byte) : bool := (lo <=? ord b) && (ord b <=? hi).
Definition low6 (b : byte) : Z := Z.land (ord b) 63.

Fixpoint utf8_decode (bs : bytes) : option str :=
  match bs with
  | [] => Some []
  | b0 :: r0 =>
    let c0 := ord b0 in
    if c0 <? 128 then cons c0 <$> utf8_decode r0
    else if in_range 194 223 b0 then
      match r0 with
      | b1 :: r1 =>
        if is_cont b1
        then cons (Z.lor (Z.shiftl (Z.land c0 31) 6) (low6 b1)) <$> utf8_decode r1
        else None
      | _ => None
      end
    else if in_range 224 239 b0 then
      match r0 with
      | b1 :: b2 :: r2 =>
        let lo := if c0 =? 224 then 160 else 128 in
        let hi := if c0 =? 237 then 159 else 191 in
        if in_range lo hi b1 && is_cont b2
        then cons (Z.lor (Z.shiftl (Z.land c0 15) 12)
                     (Z.lor (Z.shiftl (low6 b1) 6) (low6 b2))) <$> utf8_decode r2
        else None
      | _ => None
      end
    else if in_range 240 244 b0 then
      match r0 with
      | b1 :: b2 :: b3 :: r3 =>
        let lo := if c0 =? 240 then 144 else 128 in
        let hi := if c0 =? 244 then 143 else 191 in
        if in_range lo hi b1 && is_cont b2 && is_cont b3
        then cons (Z.lor (Z.shiftl (Z.land c0 7) 18)
                     (Z.lor (Z.shiftl (low6 b1) 12)
                        (Z.lor (Z.shiftl (low6 b2) 6) (low6 b3)))) <$> utf8_decode r3
        else None
      | _ => None
      end
    else None
  end.

(** ** [str(b)] for a [bytes] object [b]: its [repr] *)

Definition repr_byte (quote : Z) (b : byte) : str :=
  let n := ord b in
  if (n =? quote) || (n =? 92) then [92; n]
  else if n =? 9 then [92; 116]
  else if n =? 10 then [92; 110]
  else if n =? 13 then [92; 114]
  else if (n <? 32) || (127 <=? n) then 92 :: 120 :: hex_byte b
  else [n].

Definition bytes_repr (b : bytes) : str :=
  let has_single := existsb (fun c => ord c =? 39) b in
  let has_double := existsb (fun c => ord c =? 34) b in
  let quote := if has_single && negb has_double then 34 else 39 in
  98 :: quote :: flat_map (repr_byte quote) b ++ [quote].

(** ** The external collaborators

    [lzma_decompress] is the black-box LZMA decoder ([None] when it rejects
    its input); [unicode_lower] is [str.lower] on strings that contain a
    code point outside ASCII, where the result is given by the Unicode
    character database. *)

Class PyRuntime := {
  lzma_decompress : bytes -> option bytes;
  unicode_lower : str -> str
}.

Definition ascii_lower (c : Z) : Z :=
  if (65 <=? c) && (c <=? 90) then c + 32 else c.

Definition isascii (s : str) : bool := forallb (fun c => c <? 128) s.

(** [s.lower()] *)
Definition lower `{PyRuntime} (s : str) : str :=
  if isascii s then map ascii_lower s else unicode_lower s.

(** ** Exceptions, objects and the file system *)

Inductive exn :=
| ValueError
| FileNotFoundError
| UnicodeDecodeError
| LZMAError
| AttributeError.

Inductive outcome (A : Type) :=
| Return (a : A)
| Raise (e : exn).
Arguments Return {A} a.
Arguments Raise {A} e.

Inductive Signature := NONE | LZMA | SC | SCLZ | SIG.

(** An [ScCompression] instance: each attribute is absent until assigned. *)
Record ScCompression := mkSelf {
  _fp : option string;
  _buffer : option bytes;
  _formattedbuffer : option bytes
}.

Definition fresh : ScCompression :=
  {| _fp := None; _buffer := None; _formattedbuffer := None |}.

(** What a method can read and change: the instance and the files.  Files
    are named by the text of their path: the model does not identify two
    spellings of one path, and it knows regular files only. *)
Record world := mkWorld {
  self : ScCompression;
  disk : gmap string bytes
}.

Definition M (A : Type) : Type := world -> outcome A * world.

Definition ret {A} (a : A) : M A := fun w => (Return a, w).
Definition raise {A} (e : exn) : M A := fun w => (Raise e, w).
Definition bind {A B} (m : M A) (k : A -> M B) : M B :=
  fun w => match m w with
           | (Return a, w') => k a w'
           | (Raise e, w') => (Raise e, w')
           end.

Notation "x <- m ;; k" := (bind m (fun x => k))
  (at level 90, m at next level, right associativity).
Notation "m ;;; k" := (bind m (fun _ => k))
  (at level 90, right associativity).

(** Reading an attribute that was never assigned raises [AttributeError]. *)
Definition getattr {A} (field : ScCompression -> option A) : M A :=
  fun w => match field (self w) with
           | Some v => (Return v, w)
           | None => (Raise AttributeError, w)
           end.

Definition set_fp (v : string) : M unit :=
  fun w => (Return tt,
            mkWorld (mkSelf (Some v) (_buffer (self w)) (_formattedbuffer (self w))) (disk w)).
Definition set_buffer (v : bytes) : M unit :=
  fun w => (Return tt,
            mkWorld (mkSelf (_fp (self w)) (Some v) (_formattedbuffer (self w))) (disk w)).
Definition set_formattedbuffer (v : bytes) : M unit :=
  fun w => (Return tt,
            mkWorld (mkSelf (_fp (self w)) (_buffer (self w)) (Some v)) (disk w)).

(** [with open(fp, "rb") as f: f.read()].  A path that names no file raises
    [FileNotFoundError]; the other ways [open] can fail (a directory, a path
    that is not valid, missing rights) are outside the model. *)
Definition read_file (fp : string) : M bytes :=
  fun w => match disk w !! fp with
           | Some content => (Return content, w)
           | None => (Raise FileNotFoundError, w)
           end.

(** [with open(fp, "wb") as f: f.write(data)], the number of bytes written.
    The model describes the runs in which the file can be opened for
    writing; a failing [open] is outside it. *)
Definition write_file (fp : string) (data : bytes) : M nat :=
  fun w => (Return (length data), mkWorld (self w) (<[fp := data]> (disk w))).

(** [lzma.decompress(stream)]: the decoder's output, or [LZMAError]. *)
Definition lzma_outcome `{PyRuntime} (stream : bytes) : outcome bytes :=
  match lzma_decompress stream with
  | Some out => Return out
  | None => Raise LZMAError
  end.

Definition decode_lzma `{PyRuntime} (stream : bytes) : M bytes :=
  fun w => (lzma_outcome stream, w).

Definition decode_utf8 (b : bytes) : M str :=
  match utf8_decode b with
  | Some s => ret s
  | None => raise UnicodeDecodeError
  end.

(** ** [sc_compression/__init__.py] *)

Module Init.
Section Methods.
Context `{PyRuntime}.

(** [ScCompression.__init__(self, fp="", buffer=b"")] *)
Definition __init__ (fp : string) (buffer : bytes) : M unit :=
  if negb (String.eqb fp EmptyString) then
    set_fp fp ;;;
    content <- read_file fp ;;
    set_buffer content
  else if negb (bool_decide (buffer = [])) then
    set_buffer buffer
  else
    raise ValueError.

Definition _readSignature : M Signature :=
  buffer <- getattr _buffer ;;
  if str_eq (lower (hex (take 3 buffer))) (lit "5d0000") then ret LZMA
  else
    head2 <- decode_utf8 (take 2 buffer) ;;
    if str_eq (lower head2) (lit "sc") then
      if (30 <? length buffer)%nat then
        mid4 <- decode_utf8 (slice 26 30 buffer) ;;
        if str_eq (lower mid4) (lit "sclz") then ret SCLZ else ret SC
      else ret SC
    else
      head4 <- decode_utf8 (take 4 buffer) ;;
      if str_eq (lower head4) (lit "sig:") then ret SIG else ret NONE.

Definition _decompressLZMA (offset : nat) : M bytes :=
  buffer <- getattr _buffer ;;
  let uncompressedSize :=
    int_from_bytes (slice (5 + offset) (9 + offset) buffer) big true in
  (if uncompressedSize =? -1 then
     set_formattedbuffer
       (slice offset (9 + offset) buffer ++ [xff; xff; xff; xff] ++ drop (9 + offset) buffer)
   else
     set_formattedbuffer
       (slice offset (9 + offset) buffer ++ [x00; x00; x00; x00] ++ drop (9 + offset) buffer)) ;;;
  formatted <- getattr _formattedbuffer ;;
  write_file "newinsertpy.csv" formatted ;;;
  formatted <- getattr _formattedbuffer ;;
  decode_lzma formatted.

Definition _decompressSC : M bytes := _decompressLZMA 26.

Definition _decompressSCLZ : M bytes := getattr _buffer.

Definition _decompressSIG : M bytes := _decompressLZMA 68.

Definition decompress : M bytes :=
  signature <- _readSignature ;;
  match signature with
  | NONE => getattr _buffer
  | LZMA => _decompressLZMA 0
  | SC => _decompressSC
  | SCLZ => _decompressSCLZ
  | SIG => _decompressSIG
  end.



End Methods.
End Init.

(** ** [sc_compression/ScCompression.py] *)

Module ScCompressionPy.
Section Methods.
Context `{PyRuntime}.

(** [ScCompression.__init__(self, fp="", buffer=b"")]: no [else] branch. *)
Definition __init__ (fp : string) (buffer : bytes) : M unit :=
  if negb (String.eqb fp EmptyString) then
    set_fp fp ;;;
    content <- read_file fp ;;
    set_buffer content
  else if negb (bool_decide (buffer = [])) then
    set_buffer buffer
  else
    ret tt.

(** The text tests go through [str(...)], the [repr] of the slice. *)
Definition _readSignature : M Signature :=
  buffer <- getattr _buffer ;;
  if str_eq (lower (hex (take 3 buffer))) (lit "5d0000") then ret LZMA
  else if str_eq (lower (bytes_repr (take 2 buffer))) (lit "sc") then
    if (30 <? length buffer)%nat
       && str_eq (lower (bytes_repr (slice 26 30 buffer))) (lit "sclz")
    then ret SCLZ
    else ret SC
  else if str_eq (bytes_repr (take 4 buffer)) (lit "sig:") then ret SIG
  else ret NONE.

(** Takes no offset and always reads [self._buffer]. *)
Definition _decompressLZMA : M bytes :=
  buffer <- getattr _buffer ;;
  let uncompressedSize := int_from_bytes (slice 5 9 buffer) little true in
  (if uncompressedSize =? -1 then
     set_formattedbuffer (take 9 buffer ++ [xff; xff; xff; xff] ++ drop 9 buffer)
   else
     set_formattedbuffer (take 9 buffer ++ [x00; x00; x00; x00] ++ drop 9 buffer)) ;;;
  formatted <- getattr _formattedbuffer ;;
  decode_lzma formatted.

Definition _decompressSC : M bytes :=
  buffer <- getattr _buffer ;;
  set_formattedbuffer (drop 26 buffer) ;;;
  _decompressLZMA.

Definition _decompressSCLZ : M bytes :=
  buffer <- getattr _buffer ;;
  set_formattedbuffer buffer ;;;
  getattr _formattedbuffer.

Definition _decompressSIG : M bytes :=
  buffer <- getattr _buffer ;;
  set_formattedbuffer (drop 68 buffer) ;;;
  _decompressLZMA.

Definition Decompress : M bytes :=
  signature <- _readSignature ;;
  match signature with
  | NONE => getattr _buffer
  | LZMA => _decompressLZMA
  | SC => _decompressSC
  | SCLZ => _decompressSCLZ
  | SIG => _decompressSIG
  end.

Definition DecompressToStr : M str :=
  data <- Decompress ;;
  decode_utf8 data.

Definition DecompressToFile (fp : string) : M nat :=
  _bytes <- Decompress ;;
  write_file fp _bytes.

End Methods.
End ScCompressionPy.

(** Building an instance: [ScCompression(fp, buffer)] starts from an object
    without attributes and runs [__init__] on it. *)
Definition start (files : gmap string bytes) : world := mkWorld fresh files.

(** An already constructed instance holding [buffer]. *)
Definition holding (buffer : bytes) (files : gmap string bytes) : world :=
  mkWorld (mkSelf None (Some buffer) None) files.


(** ** Vocabulary of the statements *)

(** The four bytes put after the stored header, chosen by the size read. *)
Definition size_pad (size : Z) : bytes :=
  if size =? -1 then [xff; xff; xff; xff] else [x00; x00; x00; x00].

(** The stream handed to the decoder for a header that starts at [offset],
    with the size field read in byte order [order].  Lemmas
    [Init_run_decompressLZMA] and [ScCompressionPy_run_decompressLZMA] show
    that this is what the two [_decompressLZMA] methods build. *)
Definition adapted (order : byteorder) (offset : nat) (buffer : bytes) : bytes :=
  slice offset (9 + offset) buffer
  ++ size_pad (int_from_bytes (slice (5 + offset) (9 + offset) buffer) order true)
  ++ drop (9 + offset) buffer.

(** The eight-byte sentinel as the specification words it: eight [FF] bytes
    for a size of -1, otherwise four zero bytes followed by the four raw size
    bytes. *)
Definition spec_sentinel (size : Z) (raw : bytes) : bytes :=
  if size =? -1 then [xff; xff; xff; xff; xff; xff; xff; xff]
  else [x00; x00; x00; x00] ++ raw.

(** The canonical stream as the specification words it: the nine stored
    header bytes, then the eight-byte sentinel, then the payload. *)
Definition spec_canonical_stream (offset : nat) (buffer : bytes) : bytes :=
  slice offset (offset + 9) buffer
  ++ spec_sentinel (int_from_bytes (slice (offset + 5) (offset + 9) buffer) big true)
       (slice (offset + 5) (offset + 9) buffer)
  ++ drop (offset + 9) buffer.

(** A runtime to evaluate examples with: a decoder that accepts any stream
    carrying the 13-byte header and returns what follows it, and a
    [str.lower] that leaves strings outside ASCII alone. *)
Definition sample_runtime : PyRuntime :=
  {| lzma_decompress := fun s => if (13 <=? length s)%nat then Some (drop 13 s) else None;
     unicode_lower := fun s => s |}.

(** [bs] equals the ASCII text [text] up to the case of its letters. *)
Definition ci_equal (bs : bytes) (text : string) : Prop :=
  map (fun b => ascii_lower (ord b)) bs = lit text.

(** Every byte of [bs] is an ASCII character. *)
Definition ascii_bytes (bs : bytes) : Prop := Forall (fun b => ord b < 128) bs.

(** The header offset [decompress] uses for a signature; [NONE] and [SCLZ]
    buffers are not adapted at all. *)
Definition offset_of (s : Signature) : option nat :=
  match s with
  | LZMA => Some 0%nat
  | SC => Some 26%nat
  | SIG => Some 68%nat
  | NONE | SCLZ => None
  end.

(** The world [__init__.py] leaves behind after adapting at [offset]. *)
Definition adapted_world (offset : nat) (buffer : bytes) (w : world) : world :=
  mkWorld (mkSelf (_fp (self w)) (Some buffer) (Some (adapted big offset buffer)))
          (<["newinsertpy.csv"%string := adapted big offset buffer]> (disk w)).

(** An instance in world [w] holds [buffer]. *)
Definition holds (w : world) (buffer : bytes) : Prop := _buffer (self w) = Some buffer.

(** ** Auxiliary facts about the runtime model *)

Lemma ord_range (b : byte) : 0 <= ord b <= 255.
Proof. unfold ord. pose proof (Byte.to_N_bounded b). lia. Qed.

Lemma ord_255 (b : byte) : ord b = 255 -> b = xff.
Proof.
  intros E.
  assert (Hn : Byte.to_N b = 255%N) by (unfold ord in E; lia).
  pose proof (Byte.of_to_N b) as P. rewrite Hn in P.
  vm_compute in P. congruence.
Qed.

Lemma le_value_range (l : bytes) : 0 <= le_value l < 256 ^ Z.of_nat (length l).
Proof.
  induction l as [|b l IH]; simpl le_value; simpl length.
  - simpl. lia.
  - rewrite Nat2Z.inj_succ, Z.pow_succ_r by lia.
    pose proof (ord_range b). lia.
Qed.

Lemma le_value_top (l : bytes) :
  le_value l = 256 ^ Z.of_nat (length l) - 1 <-> Forall (eq xff) l.
Proof.
  induction l as [|b l IH]; simpl le_value; simpl length.
  - split; [constructor | reflexivity].
  - rewrite Nat2Z.inj_succ, Z.pow_succ_r by lia.
    pose proof (ord_range b) as Hb. pose proof (le_value_range l) as Hl.
    split.
    + intros E.
      assert (Hb' : ord b = 255) by lia.
      constructor; [symmetry; now apply ord_255 | apply IH; lia].
    + intros HF. inversion HF as [|? ? Hx Hr]; subst.
      apply IH in Hr. rewrite Hr. change (ord xff) with 255. lia.
Qed.

(** A signed read gives -1 exactly on a non-empty run of [FF] bytes, whatever
    the byte order. *)
Lemma int_from_bytes_minus_one (bs : bytes) (order : byteorder) :
  int_from_bytes bs order true = -1 <-> bs <> [] /\ Forall (eq xff) bs.
Proof.
  unfold int_from_bytes.
  set (l := match order with big => rev bs | little => bs end).
  assert (Hlen : length l = length bs) by (subst l; destruct order; [apply length_rev | reflexivity]).
  assert (HF : Forall (eq xff) l <-> Forall (eq xff) bs).
  { subst l. destruct order; [|tauto]. split; intros HF.
    - rewrite <- (rev_involutive bs). now apply Forall_rev.
    - now apply Forall_rev. }
  rewrite <- Hlen, <- HF, <- le_value_top.
  pose proof (le_value_range l) as Hr.
  assert (Hne : bs <> [] <-> (0 < length l)%nat).
  { rewrite Hlen. destruct bs; simpl; split; intros; try congruence; lia. }
  rewrite Hne. simpl andb.
  assert (Hp : (0 < length l)%nat -> 256 <= 256 ^ Z.of_nat (length l)).
  { intros Hpos. replace (Z.of_nat (length l)) with (Z.succ (Z.of_nat (length l - 1))) by lia.
    rewrite Z.pow_succ_r by lia.
    pose proof (Z.pow_pos_nonneg 256 (Z.of_nat (length l - 1))). lia. }
  destruct (length l) as [|n] eqn:En.
  - change (256 ^ Z.of_nat 0) with 1 in *.
    destruct (1 <=? 2 * le_value l) eqn:Ec; [apply Z.leb_le in Ec|]; lia.
  - specialize (Hp ltac:(lia)).
    destruct (256 ^ Z.of_nat (S n) <=? 2 * le_value l) eqn:Ec;
      [apply Z.leb_le in Ec | apply Z.leb_gt in Ec]; lia.
Qed.

Lemma int_from_bytes_empty (order : byteorder) (signed : bool) :
  int_from_bytes [] order signed = 0.
Proof. destruct order, signed; reflexivity. Qed.

(** ** Slices *)

Lemma slice_drop (i j o : nat) (b : bytes) :
  slice (i + o) (j + o) b = slice i j (drop o b).
Proof.
  unfold slice. rewrite drop_drop.
  replace (j + o - (i + o))%nat with (j - i)%nat by lia.
  now replace (o + i)%nat with (i + o)%nat by lia.
Qed.

Lemma adapted_drop (order : byteorder) (o : nat) (b : bytes) :
  adapted order 0 (drop o b) = adapted order o b.
Proof.
  unfold adapted. rewrite !Nat.add_0_r.
  rewrite <- !slice_drop, drop_drop.
  now replace (o + 9)%nat with (9 + o)%nat by lia.
Qed.

Lemma adapted_wrap (order : byteorder) (header payload : bytes) :
  adapted order (length header) (header ++ payload) = adapted order 0 payload.
Proof. rewrite <- adapted_drop. now rewrite drop_app_length. Qed.

(** ** The hexadecimal form and the magic [5D 00 00] *)

Lemma hex_byte_lower (b : byte) :
  isascii (hex_byte b) = true /\ map ascii_lower (hex_byte b) = hex_byte b.
Proof. destruct b; split; reflexivity. Qed.

Lemma hex_lower `{PyRuntime} (b : bytes) : lower (hex b) = hex b.
Proof.
  assert (Hb : isascii (hex b) = true /\ map ascii_lower (hex b) = hex b).
  { induction b as [|x b [IH1 IH2]]; [split; reflexivity|].
    destruct (hex_byte_lower x) as [H1 H2].
    unfold isascii in *. change (hex (x :: b)) with (hex_byte x ++ hex b).
    rewrite forallb_app, map_app, H1, IH1, H2, IH2. now split. }
  unfold lower. now destruct Hb as [-> ->].
Qed.

Lemma hex_byte_5d (b : byte) : hex_byte b = [53; 100] -> b = x5d.
Proof. destruct b; intros E; vm_compute in E; congruence. Qed.

Lemma hex_byte_00 (b : byte) : hex_byte b = [48; 48] -> b = x00.
Proof. destruct b; intros E; vm_compute in E; congruence. Qed.

(** The first test of both classifiers succeeds exactly on the magic. *)
Lemma hex_magic `{PyRuntime} (b : bytes) :
  str_eq (lower (hex b)) (lit "5d0000") = true <-> b = [x5d; x00; x00].
Proof.
  rewrite hex_lower. unfold str_eq. rewrite bool_decide_eq_true.
  change (lit "5d0000") with [53; 100; 48; 48; 48; 48].
  split; [|now intros ->].
  intros E. unfold hex in E.
  destruct b as [|b0 [|b1 [|b2 [|b3 r]]]]; cbn [flat_map app hex_byte] in E;
    try discriminate E.
  injection E as E0 E0' E1 E1' E2 E2'.
  assert (H0 : hex_byte b0 = [53; 100]) by (unfold hex_byte; congruence).
  assert (H1 : hex_byte b1 = [48; 48]) by (unfold hex_byte; congruence).
  assert (H2 : hex_byte b2 = [48; 48]) by (unfold hex_byte; congruence).
  now rewrite (hex_byte_5d _ H0), (hex_byte_00 _ H1), (hex_byte_00 _ H2).
Qed.

(** ** Decoding and lowering ASCII bytes *)

Lemma utf8_decode_ascii (bs : bytes) :
  ascii_bytes bs -> utf8_decode bs = Some (map ord bs).
Proof.
  induction 1 as [|b bs Hb _ IH]; [reflexivity|].
  cbn [utf8_decode map].
  apply Z.ltb_lt in Hb. now rewrite Hb, IH.
Qed.

Lemma lower_ascii `{PyRuntime} (bs : bytes) :
  ascii_bytes bs -> lower (map ord bs) = map (fun b => ascii_lower (ord b)) bs.
Proof.
  intros Hb. unfold lower.
  assert (Ha : isascii (map ord bs) = true).
  { induction Hb as [|b bs Hb _ IH]; [reflexivity|].
    unfold isascii in *. simpl. apply Z.ltb_lt in Hb. now rewrite Hb, IH. }
  rewrite Ha. apply map_map.
Qed.

Lemma ascii_lower_small (c : Z) : ascii_lower c < 128 -> c < 128.
Proof.
  unfold ascii_lower.
  destruct ((65 <=? c) && (c <=? 90)) eqn:E; [|trivial].
  apply andb_true_iff in E as [_ E]. apply Z.leb_le in E. lia.
Qed.

Lemma ci_equal_ascii (bs : bytes) (text : string) :
  Forall (fun c => c < 128) (lit text) -> ci_equal bs text -> ascii_bytes bs.
Proof.
  unfold ci_equal, ascii_bytes. generalize (lit text) as l.
  induction bs as [|b bs IH]; intros l Hl E; [constructor|].
  destruct l as [|c l]; [discriminate|].
  simpl in E. injection E as Ec El. inversion Hl as [|? ? Hc Hl']; subst.
  constructor; [now apply ascii_lower_small | now apply (IH _ Hl')].
Qed.

(** A slice that matches an ASCII text up to case decodes, and its lowered
    form is that text. *)
Lemma decode_ci_equal `{PyRuntime} (bs : bytes) (text : string) :
  Forall (fun c => c < 128) (lit text) -> ci_equal bs text ->
  exists s, utf8_decode bs = Some s /\ lower s = lit text.
Proof.
  intros Hl E. pose proof (ci_equal_ascii bs text Hl E) as Ha.
  exists (map ord bs). split; [now apply utf8_decode_ascii|].
  now rewrite lower_ascii.
Qed.

(** ** The [repr] of a [bytes] object *)

Lemma repr_byte_ascii (quote : Z) (b : byte) :
  quote = 34 \/ quote = 39 -> isascii (repr_byte quote b) = true.
Proof. intros [-> | ->]; destruct b; reflexivity. Qed.

Lemma bytes_repr_ascii (b : bytes) : isascii (bytes_repr b) = true.
Proof.
  unfold bytes_repr.
  match goal with |- context [if ?c then 34 else 39] =>
    set (quote := if c then 34 else 39);
    assert (Hq : quote = 34 \/ quote = 39) by (subst quote; destruct c; auto)
  end.
  clearbody quote. unfold isascii. simpl.
  rewrite forallb_app. simpl.
  assert (Hbody : forallb (fun c => c <? 128) (flat_map (repr_byte quote) b) = true).
  { induction b as [|x b IH]; [reflexivity|]. simpl.
    pose proof (repr_byte_ascii quote x Hq) as Hx. unfold isascii in Hx.
    now rewrite forallb_app, IH, Hx. }
  rewrite Hbody. now destruct Hq as [-> | ->].
Qed.

(** Lowered or not, the [repr] begins with the letter [b]. *)
Lemma bytes_repr_head (b : bytes) : exists t, bytes_repr b = 98 :: t.
Proof. unfold bytes_repr. eauto. Qed.

Lemma lower_bytes_repr_head `{PyRuntime} (b : bytes) :
  exists t, lower (bytes_repr b) = 98 :: t.
Proof.
  unfold lower. rewrite bytes_repr_ascii.
  destruct (bytes_repr_head b) as [t ->]. simpl. eauto.
Qed.

(** ** Running the methods *)

Section Runs.
Context `{PyRuntime}.

Lemma Init_run_decompressLZMA offset fp (buffer : bytes) fb files :
  Init._decompressLZMA offset (mkWorld (mkSelf fp (Some buffer) fb) files) =
  (lzma_outcome (adapted big offset buffer),
   mkWorld (mkSelf fp (Some buffer) (Some (adapted big offset buffer)))
           (<["newinsertpy.csv"%string := adapted big offset buffer]> files)).
Proof.
  unfold Init._decompressLZMA, adapted, size_pad, bind, getattr; simpl.
  destruct (int_from_bytes _ big true =? -1); reflexivity.
Qed.

Lemma ScCompressionPy_run_decompressLZMA fp (buffer : bytes) fb files :
  ScCompressionPy._decompressLZMA (mkWorld (mkSelf fp (Some buffer) fb) files) =
  (lzma_outcome (adapted little 0 buffer),
   mkWorld (mkSelf fp (Some buffer) (Some (adapted little 0 buffer))) files).
Proof.
  unfold ScCompressionPy._decompressLZMA, adapted, size_pad, bind, getattr, slice; simpl.
  rewrite !drop_0.
  destruct (int_from_bytes _ little true =? -1); reflexivity.
Qed.

(** Classification reads the instance and changes nothing. *)
Lemma Init_readSignature_world w : snd (Init._readSignature w) = w.
Proof.
  unfold Init._readSignature, bind, getattr, decode_utf8, ret, raise.
  repeat (case_match; simplify_eq; simpl); reflexivity.
Qed.

Lemma ScCompressionPy_readSignature_world w : snd (ScCompressionPy._readSignature w) = w.
Proof.
  unfold ScCompressionPy._readSignature, bind, getattr, ret, raise.
  repeat (case_match; simplify_eq; simpl); reflexivity.
Qed.

Lemma Init_readSignature_run w s :
  fst (Init._readSignature w) = Return s -> Init._readSignature w = (Return s, w).
Proof.
  intros E. rewrite (surjective_pairing (Init._readSignature w)).
  now rewrite E, Init_readSignature_world.
Qed.

Lemma ScCompressionPy_readSignature_run w s :
  fst (ScCompressionPy._readSignature w) = Return s ->
  ScCompressionPy._readSignature w = (Return s, w).
Proof.
  intros E. rewrite (surjective_pairing (ScCompressionPy._readSignature w)).
  now rewrite E, ScCompressionPy_readSignature_world.
Qed.

Lemma Init_decompress_dispatch w s :
  fst (Init._readSignature w) = Return s ->
  Init.decompress w =
  match s with
  | NONE | SCLZ => getattr _buffer w
  | LZMA => Init._decompressLZMA 0 w
  | SC => Init._decompressLZMA 26 w
  | SIG => Init._decompressLZMA 68 w
  end.
Proof.
  intros E. unfold Init.decompress, bind.
  rewrite (Init_readSignature_run _ _ E). now destruct s.
Qed.

Lemma ScCompressionPy_Decompress_dispatch w s :
  fst (ScCompressionPy._readSignature w) = Return s ->
  ScCompressionPy.Decompress w =
  match s with
  | NONE => getattr _buffer w
  | LZMA => ScCompressionPy._decompressLZMA w
  | SC => ScCompressionPy._decompressSC w
  | SCLZ => ScCompressionPy._decompressSCLZ w
  | SIG => ScCompressionPy._decompressSIG w
  end.
Proof.
  intros E. unfold ScCompressionPy.Decompress, bind.
  rewrite (ScCompressionPy_readSignature_run _ _ E). now destruct s.
Qed.

(** Both classifiers answer [LZMA] on the magic [5D 00 00]. *)
Lemma Init_readSignature_lzma w (buffer : bytes) :
  holds w buffer -> take 3 buffer = [x5d; x00; x00] ->
  Init._readSignature w = (Return LZMA, w).
Proof.
  intros Hb Hm. unfold Init._readSignature, bind, getattr.
  rewrite Hb, Hm. reflexivity.
Qed.

Lemma ScCompressionPy_readSignature_lzma w (buffer : bytes) :
  holds w buffer -> take 3 buffer = [x5d; x00; x00] ->
  ScCompressionPy._readSignature w = (Return LZMA, w).
Proof.
  intros Hb Hm. unfold ScCompressionPy._readSignature, bind, getattr.
  rewrite Hb, Hm. reflexivity.
Qed.

(** What [__init__.py] answers on a buffer that starts with [SC] in any
    case: [SC] up to 30 bytes; beyond, [SCLZ] when bytes 26..30 spell it, and
    [SC] when they are other ASCII bytes. *)
Lemma Init_readSignature_sc w (buffer : bytes) :
  holds w buffer -> ci_equal (take 2 buffer) "sc" ->
  ((length buffer <= 30)%nat -> Init._readSignature w = (Return SC, w))
  /\ ((30 < length buffer)%nat -> ci_equal (slice 26 30 buffer) "sclz" ->
      Init._readSignature w = (Return SCLZ, w))
  /\ ((30 < length buffer)%nat -> ascii_bytes (slice 26 30 buffer) ->
      ~ ci_equal (slice 26 30 buffer) "sclz" ->
      Init._readSignature w = (Return SC, w)).
Proof.
  intros Hb Hsc.
  assert (Hm : str_eq (lower (hex (take 3 buffer))) (lit "5d0000") = false).
  { apply not_true_is_false. rewrite hex_magic. intros Hm.
    assert (E : take 2 buffer = [x5d; x00]).
    { replace (take 2 buffer) with (take 2 (take 3 buffer)) by now rewrite take_take.
      now rewrite Hm. }
    rewrite E in Hsc. discriminate Hsc. }
  destruct (decode_ci_equal (take 2 buffer) "sc") as (s2 & Hd2 & Hl2);
    [repeat constructor | exact Hsc |].
  assert (Hhead :
             Init._readSignature w =
             (if (30 <? length buffer)%nat
              then mid4 <- decode_utf8 (slice 26 30 buffer) ;;
                   if str_eq (lower mid4) (lit "sclz") then ret SCLZ else ret SC
              else ret SC) w).
  { unfold Init._readSignature, bind at 1, getattr. rewrite Hb, Hm.
    unfold bind at 1, decode_utf8 at 1. rewrite Hd2. unfold ret at 1.
    unfold str_eq at 1. rewrite Hl2. now rewrite bool_decide_eq_true_2. }
  rewrite Hhead.
  split; [|split].
  - intros Hlen. apply Nat.ltb_ge in Hlen. now rewrite Hlen.
  - intros Hlen Hz. apply Nat.ltb_lt in Hlen. rewrite Hlen.
    destruct (decode_ci_equal (slice 26 30 buffer) "sclz") as (s4 & Hd4 & Hl4);
      [repeat constructor | exact Hz |].
    unfold bind, decode_utf8. rewrite Hd4. unfold ret at 1.
    unfold str_eq. rewrite Hl4. now rewrite bool_decide_eq_true_2.
  - intros Hlen Ha Hz. apply Nat.ltb_lt in Hlen. rewrite Hlen.
    unfold bind, decode_utf8. rewrite (utf8_decode_ascii _ Ha). unfold ret at 1.
    unfold str_eq. rewrite (lower_ascii _ Ha).
    now rewrite bool_decide_eq_false_2.
Qed.

(** [ScCompression.py] compares a [repr], which begins with [b], against
    [sc], [sclz] and [sig:], so it never answers [SC], [SCLZ] or [SIG]. *)
Lemma ScCompressionPy_readSignature_range w s :
  fst (ScCompressionPy._readSignature w) = Return s -> s = LZMA \/ s = NONE.
Proof.
  unfold ScCompressionPy._readSignature, bind, getattr, ret.
  destruct (_buffer (self w)) as [buffer|]; [|discriminate].
  destruct (str_eq (lower (hex (take 3 buffer))) (lit "5d0000")).
  { simpl. intros [= <-]. now left. }
  destruct (lower_bytes_repr_head (take 2 buffer)) as [t2 ->].
  destruct (bytes_repr_head (take 4 buffer)) as [t4 ->].
  unfold str_eq.
  rewrite (bool_decide_eq_false_2 (98 :: t2 = lit "sc")) by discriminate.
  rewrite (bool_decide_eq_false_2 (98 :: t4 = lit "sig:")) by discriminate.
  simpl. intros [= <-]. now right.
Qed.

End Runs.

(** ** The size field and the pad *)

Lemma size_pad_length (size : Z) : length (size_pad size) = 4%nat.
Proof. unfold size_pad. now destruct (size =? -1). Qed.

Lemma size_pad_all_ff (bs : bytes) (order : byteorder) :
  bs <> [] -> Forall (eq xff) bs ->
  size_pad (int_from_bytes bs order true) = [xff; xff; xff; xff].
Proof.
  intros Hne HF. unfold size_pad.
  now rewrite (proj2 (int_from_bytes_minus_one bs order) (conj Hne HF)).
Qed.

Lemma size_pad_other (bs : bytes) (order : byteorder) :
  ~ (bs <> [] /\ Forall (eq xff) bs) ->
  size_pad (int_from_bytes bs order true) = [x00; x00; x00; x00].
Proof.
  intros Hn. unfold size_pad.
  destruct (int_from_bytes bs order true =? -1) eqn:E; [|reflexivity].
  apply Z.eqb_eq, int_from_bytes_minus_one in E. contradiction.
Qed.

(** The byte order of the read does not change the stream that is built. *)
Lemma adapted_order (offset : nat) (buffer : bytes) :
  adapted big offset buffer = adapted little offset buffer.
Proof.
  unfold adapted. f_equal. f_equal.
  set (bs := slice (5 + offset) (9 + offset) buffer).
  destruct (int_from_bytes bs big true =? -1) eqn:E.
  - apply Z.eqb_eq, int_from_bytes_minus_one in E as [Hne HF].
    now rewrite !size_pad_all_ff.
  - assert (Hn : ~ (bs <> [] /\ Forall (eq xff) bs)).
    { intros HF. apply (int_from_bytes_minus_one bs big) in HF.
      apply Z.eqb_neq in E. contradiction. }
    now rewrite !size_pad_other.
Qed.

Lemma four_ff (b0 b1 b2 b3 : byte) :
  ([b0; b1; b2; b3] <> [] /\ Forall (eq xff) [b0; b1; b2; b3])
  <-> [b0; b1; b2; b3] = [xff; xff; xff; xff].
Proof.
  split.
  - intros [_ HF]. repeat (inversion HF as [|? ? ? HF']; subst; clear HF; rename HF' into HF).
    reflexivity.
  - intros E. injection E as -> -> -> ->. split; [discriminate | repeat constructor].
Qed.

(** Bytes 5..13 of the stream when the buffer carries the whole size field. *)
Lemma size_window (o : nat) (b stored pad rest : bytes) :
  slice (5 + o) (9 + o) b = stored ->
  length stored = 4%nat -> length pad = 4%nat ->
  slice 5 13 (slice o (9 + o) b ++ pad ++ rest) = stored ++ pad.
Proof.
  intros Hs Hl Hp.
  rewrite (slice_drop 5 9 o b) in Hs.
  assert (Hh : slice o (9 + o) b = take 5 (drop o b) ++ stored).
  { unfold slice in *. replace (9 + o - o)%nat with (5 + 4)%nat by lia.
    rewrite <- take_take_drop. now rewrite <- Hs. }
  assert (Hd : (9 <= length (drop o b))%nat).
  { rewrite <- Hs in Hl. unfold slice in Hl.
    rewrite length_take, length_drop in Hl. lia. }
  rewrite Hh. unfold slice.
  rewrite <- app_assoc.
  rewrite drop_app_length' by (rewrite length_take; lia).
  rewrite !app_assoc. rewrite take_app_length'; [reflexivity|].
  rewrite length_app. simpl. lia.
Qed.

(** ** The claims *)

Section Claims.
Context `{PyRuntime}.

(** C1 (as amended).  For every buffer and every header offset, the adapt
    step of [__init__.py] builds [buffer[offset:offset+9]], then FOUR bytes
    ([FF FF FF FF] when the size read is -1, [00 00 00 00] otherwise), then
    [buffer[offset+9:]]; that stream is what the decoder receives, and the
    Sc and Sig paths are the adapt step at offsets 26 and 68. *)
Theorem C1_adapt_stream (offset : nat) fp (buffer : bytes) fb files :
  let w := mkWorld (mkSelf fp (Some buffer) fb) files in
  let size := int_from_bytes (slice (5 + offset) (9 + offset) buffer) big true in
  let stream :=
    slice offset (9 + offset) buffer
    ++ (if size =? -1 then [xff; xff; xff; xff] else [x00; x00; x00; x00])
    ++ drop (9 + offset) buffer in
  _formattedbuffer (self (snd (Init._decompressLZMA offset w))) = Some stream
  /\ fst (Init._decompressLZMA offset w) = lzma_outcome stream
  /\ length stream = (length (slice offset (9 + offset) buffer) + 4
                      + length (drop (9 + offset) buffer))%nat
  /\ Init._decompressSC = Init._decompressLZMA 26
  /\ Init._decompressSIG = Init._decompressLZMA 68.
Proof.
  intros w size stream. subst w.
  rewrite Init_run_decompressLZMA. simpl.
  repeat split.
  subst stream. rewrite !length_app.
  destruct (size =? -1); simpl; lia.
Qed.

(** C2.  When the buffer carries the four size bytes at
    [offset+5 .. offset+9], bytes 5..13 of the stream built by the adapt step
    (the eight-byte size field of the canonical header) are eight [FF] bytes
    if the stored bytes are all [FF], and otherwise the stored bytes followed
    by four zero bytes, so that the field read little-endian has the stored
    value in its low half and zero in its high half.  A signed four-byte read
    is -1 exactly on four [FF] bytes in either byte order, and at offset 0
    the little-endian reader of [ScCompression.py] builds the same stream. *)
Theorem C2_size_field_repacked (offset : nat) fp (buffer : bytes) fb files
    (b0 b1 b2 b3 : byte) :
  slice (5 + offset) (9 + offset) buffer = [b0; b1; b2; b3] ->
  let stored := [b0; b1; b2; b3] in
  let w := mkWorld (mkSelf fp (Some buffer) fb) files in
  exists stream : bytes,
    _formattedbuffer (self (snd (Init._decompressLZMA offset w))) = Some stream
    /\ (offset = 0%nat ->
        _formattedbuffer (self (snd (ScCompressionPy._decompressLZMA w))) = Some stream)
    /\ (int_from_bytes stored big true = -1 <-> stored = [xff; xff; xff; xff])
    /\ (int_from_bytes stored little true = -1 <-> stored = [xff; xff; xff; xff])
    /\ (stored = [xff; xff; xff; xff] ->
        slice 5 13 stream = [xff; xff; xff; xff; xff; xff; xff; xff])
    /\ (stored <> [xff; xff; xff; xff] ->
        slice 5 13 stream = stored ++ [x00; x00; x00; x00]
        /\ int_from_bytes (slice 5 13 stream) little false
           = int_from_bytes stored little false).
Proof.
  intros Hs stored w. exists (adapted big offset buffer). subst w.
  rewrite Init_run_decompressLZMA, ScCompressionPy_run_decompressLZMA. simpl.
  split; [reflexivity|].
  split; [intros ->; now rewrite adapted_order|].
  split; [rewrite int_from_bytes_minus_one; apply four_ff|].
  split; [rewrite int_from_bytes_minus_one; apply four_ff|].
  unfold adapted. rewrite Hs. fold stored.
  split.
  - intros E.
    rewrite (size_window offset buffer stored _ _ Hs eq_refl (size_pad_length _)).
    rewrite size_pad_all_ff by now apply four_ff.
    now rewrite E.
  - intros NE.
    rewrite (size_window offset buffer stored _ _ Hs eq_refl (size_pad_length _)).
    rewrite size_pad_other by (intros HF; apply NE; now apply four_ff).
    split; [reflexivity|].
    unfold int_from_bytes, stored. simpl. change (ord x00) with 0. lia.
Qed.

(** C3 (the code departs from it).  A 26-byte Sc header in front of any
    Lzma payload whose dictionary is 8 MiB, [5D 00 00 80 00 ...]: the payload
    alone classifies as [LZMA], but on the wrapped buffer classification
    decodes bytes 26..30 as UTF-8 and [decompress] of [__init__.py] raises
    [UnicodeDecodeError] before any decoding; [Decompress] of
    [ScCompression.py] hands the wrapped buffer back as it is, while on the
    payload alone it gives the decoder's answer. *)
Theorem C3_wrapped_container_raises (rest : bytes) files :
  let header := [x53; x43] ++ repeat x00 24 in
  let payload := [x5d; x00; x00; x80; x00] ++ rest in
  length header = 26%nat
  /\ fst (Init._readSignature (holding payload files)) = Return LZMA
  /\ Init.decompress (holding (header ++ payload) files)
     = (Raise UnicodeDecodeError, holding (header ++ payload) files)
  /\ ScCompressionPy.Decompress (holding (header ++ payload) files)
     = (Return (header ++ payload), holding (header ++ payload) files)
  /\ fst (ScCompressionPy.Decompress (holding payload files))
     = lzma_outcome (adapted little 0 payload).
Proof.
  intros header payload.
  split; [reflexivity|]. split; [reflexivity|].
  split; [|split].
  - reflexivity.
  - now rewrite (ScCompressionPy_Decompress_dispatch _ NONE).
  - rewrite (ScCompressionPy_Decompress_dispatch _ LZMA) by reflexivity.
    unfold holding. now rewrite ScCompressionPy_run_decompressLZMA.
Qed.

(** C4 (the code departs from it).  [__init__.py] classifies by decoding the
    leading bytes as UTF-8, so on the first four bytes of a PNG file,
    [89 50 4E 47], classification raises [UnicodeDecodeError] instead of
    answering [NONE]; the classifier of [ScCompression.py] answers [NONE]. *)
Theorem C4_classification_raises files :
  fst (Init._readSignature (holding [x89; x50; x4e; x47] files)) = Raise UnicodeDecodeError
  /\ fst (ScCompressionPy._readSignature (holding [x89; x50; x4e; x47] files)) = Return NONE.
Proof. split; reflexivity. Qed.

(** C5 (the code departs from it).  A 31-byte buffer that starts with [SC]
    and carries at offset 26 an LZMA header with an 8 MiB dictionary,
    [5D 00 00 80 00]: bytes 26..30 are not [SCLZ], yet classification raises
    [UnicodeDecodeError] instead of answering [SC], because [80] does not
    start a UTF-8 sequence. *)
Theorem C5_sc_classification_raises files :
  let buffer := [x53; x43] ++ repeat x00 24 ++ [x5d; x00; x00; x80; x00] in
  length buffer = 31%nat
  /\ take 2 buffer = [x53; x43]
  /\ slice 26 30 buffer = [x5d; x00; x00; x80]
  /\ fst (Init._readSignature (holding buffer files)) = Raise UnicodeDecodeError.
Proof. repeat split; reflexivity. Qed.

(** C6 (the code departs from it).  With both a path and a buffer supplied the
    constructor of [__init__.py] does not fail: it reads the file and drops
    the buffer. *)
Theorem C6_both_supplied_accepted (content : bytes) files :
  Init.__init__ "asset.sc" [x53; x43] (start (<["asset.sc"%string := content]> files))
  = (Return tt,
     mkWorld (mkSelf (Some "asset.sc"%string) (Some content) None)
             (<["asset.sc"%string := content]> files)).
Proof.
  unfold Init.__init__, bind, set_fp, read_file, set_buffer, start. simpl.
  now rewrite lookup_insert_eq.
Qed.

(** C7 (as amended).  A buffer classified [NONE] is returned unchanged by
    [decompress], in both modules, and nothing else changes.  The empty
    buffer passed directly to the constructor of [__init__.py] is refused
    with [ValueError]; an instance that read an empty file holds the empty
    buffer, classifies as [NONE] and decompresses to the empty buffer. *)
Theorem C7_none_passthrough (w : world) (buffer : bytes) (fp : string) files :
  (holds w buffer -> fst (Init._readSignature w) = Return NONE ->
   Init.decompress w = (Return buffer, w))
  /\ (holds w buffer -> fst (ScCompressionPy._readSignature w) = Return NONE ->
      ScCompressionPy.Decompress w = (Return buffer, w))
  /\ Init.__init__ EmptyString [] (start files) = (Raise ValueError, start files)
  /\ (fp <> EmptyString -> files !! fp = Some [] ->
      let built := mkWorld (mkSelf (Some fp) (Some []) None) files in
      Init.__init__ fp [] (start files) = (Return tt, built)
      /\ Init._readSignature built = (Return NONE, built)
      /\ Init.decompress built = (Return [], built)).
Proof.
  split; [|split; [|split]].
  - intros Hb Hs. rewrite (Init_decompress_dispatch w NONE Hs).
    unfold getattr. now rewrite Hb.
  - intros Hb Hs. rewrite (ScCompressionPy_Decompress_dispatch w NONE Hs).
    unfold getattr. now rewrite Hb.
  - reflexivity.
  - intros Hfp Hfile built.
    assert (Hn : Init._readSignature built = (Return NONE, built)) by reflexivity.
    split; [|split; [exact Hn|]].
    + unfold Init.__init__, bind, set_fp, read_file, set_buffer, start. simpl.
      destruct (String.eqb_spec fp EmptyString) as [E|_]; [contradiction|].
      simpl. now rewrite Hfile.
    + rewrite (Init_decompress_dispatch built NONE) by now rewrite Hn.
      reflexivity.
Qed.

(** C8 (the code departs from it).  Decompressing an Lzma buffer with
    [__init__.py] leaves the adapted stream in the file [newinsertpy.csv],
    which the caller never named; [ScCompression.py] on the same buffer
    leaves the files as they were. *)
Theorem C8_intermediate_stream_written files :
  let buffer := [x5d; x00; x00; x04; x00; x03; x00; x00; x00; x2a] in
  let stream := [x5d; x00; x00; x04; x00; x03; x00; x00; x00;
                 x00; x00; x00; x00; x2a] in
  fst (Init.decompress (holding buffer files)) = lzma_outcome stream
  /\ disk (snd (Init.decompress (holding buffer files)))
     = <["newinsertpy.csv"%string := stream]> files
  /\ disk (snd (Init.decompress (holding buffer files))) !! "newinsertpy.csv"%string
     = Some stream
  /\ disk (snd (ScCompressionPy.Decompress (holding buffer files))) = files.
Proof.
  intros buffer stream.
  assert (Hi : Init.decompress (holding buffer files)
               = Init._decompressLZMA 0 (holding buffer files)).
  { now rewrite (Init_decompress_dispatch _ LZMA). }
  assert (Hp : ScCompressionPy.Decompress (holding buffer files)
               = ScCompressionPy._decompressLZMA (holding buffer files)).
  { now rewrite (ScCompressionPy_Decompress_dispatch _ LZMA). }
  rewrite Hi, Hp. unfold holding.
  rewrite Init_run_decompressLZMA, ScCompressionPy_run_decompressLZMA. simpl.
  change (adapted big 0 buffer) with stream.
  split; [reflexivity|]. split; [reflexivity|].
  split; [apply lookup_insert_eq | reflexivity].
Qed.

(** C9 (the code departs from it).  On the two bytes [SC] the two modules
    disagree: [__init__.py] classifies [SC] and decompresses through the
    decoder, writing [newinsertpy.csv]; [ScCompression.py] classifies [NONE]
    and returns the buffer.  They also disagree when neither a path nor a
    buffer is supplied. *)
Theorem C9_modules_disagree files :
  let w := holding [x53; x43] files in
  fst (Init._readSignature w) = Return SC
  /\ fst (ScCompressionPy._readSignature w) = Return NONE
  /\ Init.decompress w
     = (lzma_outcome [x00; x00; x00; x00],
        mkWorld (mkSelf None (Some [x53; x43]) (Some [x00; x00; x00; x00]))
                (<["newinsertpy.csv"%string := [x00; x00; x00; x00]]> files))
  /\ ScCompressionPy.Decompress w = (Return [x53; x43], w)
  /\ fst (Init.__init__ EmptyString [] (start files)) = Raise ValueError
  /\ fst (ScCompressionPy.__init__ EmptyString [] (start files)) = Return tt.
Proof.
  intros w.
  assert (H1 : fst (Init._readSignature w) = Return SC) by reflexivity.
  assert (H2 : fst (ScCompressionPy._readSignature w) = Return NONE) by reflexivity.
  split; [exact H1|]. split; [exact H2|].
  split; [|split; [|split; reflexivity]].
  - rewrite (Init_decompress_dispatch w SC H1). subst w. unfold holding.
    now rewrite Init_run_decompressLZMA.
  - now rewrite (ScCompressionPy_Decompress_dispatch w NONE H2).
Qed.

(** C10 (as amended).  On a buffer that starts with [5D 00 00], however
    short, both modules classify [LZMA] and no slice raises.  A size field
    that is wholly missing reads as 0; one that is partly present reads as
    the two's complement value of the bytes present, which is -1 exactly when
    all of them are [FF], and then the pad is [FF FF FF FF].  The stream
    [buffer[:9]], four pad bytes, [buffer[9:]] is built from the bytes there
    are and stored in [_formattedbuffer]; whenever [decompress] of
    [__init__.py] returns, it returns the decoder's output on that stream,
    and [Decompress] of [ScCompression.py], which writes no file, gives the
    decoder's answer on it. *)
Theorem C10_short_lzma_buffer fp (buffer : bytes) fb files :
  take 3 buffer = [x5d; x00; x00] ->
  let w := mkWorld (mkSelf fp (Some buffer) fb) files in
  let field := slice 5 9 buffer in
  let size := int_from_bytes field big true in
  let stream :=
    take 9 buffer
    ++ (if size =? -1 then [xff; xff; xff; xff] else [x00; x00; x00; x00])
    ++ drop 9 buffer in
  fst (Init._readSignature w) = Return LZMA
  /\ fst (ScCompressionPy._readSignature w) = Return LZMA
  /\ ((length buffer <= 5)%nat -> field = [] /\ size = 0)
  /\ (size = -1 <-> field <> [] /\ Forall (eq xff) field)
  /\ (size = -1 <-> int_from_bytes field little true = -1)
  /\ _formattedbuffer (self (snd (Init.decompress w))) = Some stream
  /\ (forall out, fst (Init.decompress w) = Return out ->
      lzma_decompress stream = Some out)
  /\ fst (ScCompressionPy.Decompress w) = lzma_outcome stream.
Proof.
  intros Hm w field size stream.
  assert (Hst : stream = adapted big 0 buffer).
  { subst stream. unfold adapted, slice. now rewrite drop_0. }
  pose proof (Init_readSignature_lzma w buffer eq_refl Hm) as Hi.
  pose proof (ScCompressionPy_readSignature_lzma w buffer eq_refl Hm) as Hp.
  assert (Hd : Init.decompress w
               = (lzma_outcome stream,
                  mkWorld (mkSelf fp (Some buffer) (Some stream))
                          (<["newinsertpy.csv"%string := stream]> files))).
  { rewrite (Init_decompress_dispatch w LZMA) by now rewrite Hi.
    subst w. now rewrite Init_run_decompressLZMA, Hst. }
  split; [now rewrite Hi|].
  split; [now rewrite Hp|].
  split.
  { intros Hlen. assert (Hf : field = []).
    { subst field. unfold slice. now rewrite drop_ge by lia. }
    split; [exact Hf|]. subst size. now rewrite Hf. }
  split; [apply int_from_bytes_minus_one|].
  split; [subst size; now rewrite !int_from_bytes_minus_one|].
  rewrite Hd. simpl.
  split; [reflexivity|].
  split.
  - intros out. unfold lzma_outcome. destruct (lzma_decompress stream); congruence.
  - rewrite (ScCompressionPy_Decompress_dispatch w LZMA) by now rewrite Hp.
    subst w. now rewrite ScCompressionPy_run_decompressLZMA, Hst, adapted_order.
Qed.

End Claims.

(** C1, as the specification words it, fails: on a ten-byte buffer whose size
    field is [00 10 00 00] the code hands the decoder 14 bytes, the nine stored
    bytes followed by four zero bytes and the payload, where the wording asks
    for 18 bytes with the size bytes repeated after the zeros. *)
Lemma C1_counterexample :
  let buffer := [x5d; x00; x00; x04; x00; x00; x10; x00; x00; x2a] in
  let w := @Init._decompressLZMA sample_runtime 0 (holding buffer ∅) in
  _formattedbuffer (self (snd w))
  = Some [x5d; x00; x00; x04; x00; x00; x10; x00; x00; x00; x00; x00; x00; x2a]
  /\ spec_canonical_stream 0 buffer
     = [x5d; x00; x00; x04; x00; x00; x10; x00; x00;
        x00; x00; x00; x00; x00; x10; x00; x00; x2a]
  /\ _formattedbuffer (self (snd w)) <> Some (spec_canonical_stream 0 buffer).
Proof.
  split; [reflexivity|]. split; [reflexivity|].
  intros E. vm_compute in E. discriminate E.
Qed.

(** A buffer with the size field [00 10 00 00] at offset 26, and one with the
    field [FF FF FF FF] at offset 0. *)
Lemma C2_witness :
  slice (5 + 0) (9 + 0) [x5d; x00; x00; x04; x00; xff; xff; xff; xff; x2a]
  = [xff; xff; xff; xff]
  /\ exists stream : bytes,
       _formattedbuffer
         (self (snd (@Init._decompressLZMA sample_runtime 0
                       (holding [x5d; x00; x00; x04; x00; xff; xff; xff; xff; x2a] ∅))))
       = Some stream
       /\ slice 5 13 stream = [xff; xff; xff; xff; xff; xff; xff; xff].
Proof.
  split; [reflexivity|].
  destruct (@C2_size_field_repacked sample_runtime 0 None
              [x5d; x00; x00; x04; x00; xff; xff; xff; xff; x2a] None ∅
              xff xff xff xff eq_refl) as (stream & Hf & _ & _ & _ & Hff & _).
  exists stream. split; [exact Hf | now apply Hff].
Defined.

(** C7, as stated, fails on its own example: constructing from the empty
    buffer raises [ValueError], so [decompress] is never reached and nothing
    returns the empty buffer. *)
Lemma C7_counterexample :
  let run := (Init.__init__ EmptyString [] ;;; Init.decompress (H := sample_runtime))
               (start ∅) in
  fst run = Raise ValueError /\ fst run <> Return [].
Proof. split; [reflexivity | discriminate]. Qed.

(** The two bytes [AB] classify as [NONE]; the file [empty.bin] is empty. *)
Lemma C7_witness :
  let w := holding [x41; x42] ∅ in
  let files : gmap string bytes := {[ "empty.bin"%string := [] ]} in
  let built := mkWorld (mkSelf (Some "empty.bin"%string) (Some []) None) files in
  fst (Init._readSignature (H := sample_runtime) w) = Return NONE
  /\ Init.decompress (H := sample_runtime) w = (Return [x41; x42], w)
  /\ files !! "empty.bin"%string = Some []
  /\ Init.__init__ "empty.bin" [] (start files) = (Return tt, built)
  /\ Init.decompress (H := sample_runtime) built = (Return [], built).
Proof.
  intros w files built.
  pose proof (@C7_none_passthrough sample_runtime w [x41; x42] "empty.bin"%string files)
    as (Hnone & _ & _ & Hfile).
  assert (Hl : files !! "empty.bin"%string = Some []) by (vm_compute; reflexivity).
  specialize (Hfile ltac:(discriminate) Hl) as (Hb & _ & Hd).
  split; [reflexivity|].
  split; [exact (Hnone eq_refl eq_refl)|].
  split; [exact Hl|].
  split; [exact Hb | exact Hd].
Defined.

(** C10, as stated, fails: with one byte [FF] of the size field present the
    read gives -1, not 0, and the [FF] pad is chosen. *)
Lemma C10_counterexample :
  let buffer := [x5d; x00; x00; x04; x00; xff] in
  fst (Init._readSignature (H := sample_runtime) (holding buffer ∅)) = Return LZMA
  /\ slice 5 9 buffer = [xff]
  /\ int_from_bytes (slice 5 9 buffer) big true = -1
  /\ int_from_bytes (slice 5 9 buffer) big true <> 0
  /\ _formattedbuffer (self (snd (Init.decompress (H := sample_runtime) (holding buffer ∅))))
     = Some (buffer ++ [xff; xff; xff; xff]).
Proof.
  intros buffer.
  split; [reflexivity|]. split; [reflexivity|]. split; [reflexivity|].
  split; [discriminate | reflexivity].
Qed.

(** A four-byte buffer, the magic and one more byte with no size field at
    all, and a twelve-byte buffer on which the sample decoder returns. *)
Lemma C10_witness :
  let short := [x5d; x00; x00; x04] in
  let long := [x5d; x00; x00; x04; x00; x03; x00; x00; x00; x61; x62; x63] in
  take 3 short = [x5d; x00; x00]
  /\ (length short <= 5)%nat
  /\ int_from_bytes (slice 5 9 short) big true = 0
  /\ _formattedbuffer (self (snd (Init.decompress (H := sample_runtime) (holding short ∅))))
     = Some (short ++ [x00; x00; x00; x00])
  /\ take 3 long = [x5d; x00; x00]
  /\ fst (Init.decompress (H := sample_runtime) (holding long ∅)) = Return [x61; x62; x63]
  /\ lzma_decompress (PyRuntime := sample_runtime)
       [x5d; x00; x00; x04; x00; x03; x00; x00; x00; x00; x00; x00; x00; x61; x62; x63]
     = Some [x61; x62; x63].
Proof.
  intros short long.
  pose proof (@C10_short_lzma_buffer sample_runtime None short None ∅ eq_refl)
    as (_ & _ & Hshort & _ & _ & Hf & _ & _).
  pose proof (@C10_short_lzma_buffer sample_runtime None long None ∅ eq_refl)
    as (_ & _ & _ & _ & _ & _ & Hout & _).
  assert (Hl : (length short <= 5)%nat) by (simpl; lia).
  assert (Hr : fst (Init.decompress (H := sample_runtime) (holding long ∅))
               = Return [x61; x62; x63]) by reflexivity.
  split; [reflexivity|]. split; [exact Hl|].
  split; [exact (proj2 (Hshort Hl))|].
  split; [exact Hf|].
  split; [reflexivity|]. split; [exact Hr|].
  exact (Hout [x61; x62; x63] Hr).
Defined.

(** ** Further properties of the two modules *)

Section Further.
Context `{PyRuntime}.

Lemma Init_decompressLZMA_held offset w (buffer : bytes) :
  holds w buffer ->
  Init._decompressLZMA offset w
  = (lzma_outcome (adapted big offset buffer), adapted_world offset buffer w).
Proof.
  destruct w as [[fp b fb] files]. unfold holds. simpl. intros ->.
  apply Init_run_decompressLZMA.
Qed.

Lemma Init_decompressLZMA_unset offset w :
  _buffer (self w) = None -> Init._decompressLZMA offset w = (Raise AttributeError, w).
Proof.
  intros E. unfold Init._decompressLZMA, bind at 1, getattr at 1. now rewrite E.
Qed.

Lemma Init_readSignature_unset w :
  _buffer (self w) = None -> Init._readSignature w = (Raise AttributeError, w).
Proof.
  intros E. unfold Init._readSignature, bind at 1, getattr at 1. now rewrite E.
Qed.

(** With a buffer in place classification answers or raises
    [UnicodeDecodeError]. *)
Lemma Init_readSignature_raises w (buffer : bytes) e :
  holds w buffer -> fst (Init._readSignature w) = Raise e -> e = UnicodeDecodeError.
Proof.
  unfold holds, Init._readSignature, bind, getattr, decode_utf8, ret, raise.
  intros ->. repeat (case_match; simplify_eq; simpl); congruence.
Qed.

Lemma Init_readSignature_raise_run w e :
  fst (Init._readSignature w) = Raise e -> Init._readSignature w = (Raise e, w).
Proof.
  intros E. rewrite (surjective_pairing (Init._readSignature w)).
  now rewrite E, Init_readSignature_world.
Qed.

Lemma Init_decompress_raise w e :
  fst (Init._readSignature w) = Raise e -> Init.decompress w = (Raise e, w).
Proof.
  intros E. unfold Init.decompress, bind.
  now rewrite (Init_readSignature_raise_run _ _ E).
Qed.

(** The whole of [decompress] on an instance that holds a buffer. *)
Lemma Init_decompress_held w (buffer : bytes) s :
  holds w buffer -> fst (Init._readSignature w) = Return s ->
  Init.decompress w =
  match offset_of s with
  | Some offset => (lzma_outcome (adapted big offset buffer), adapted_world offset buffer w)
  | None => (Return buffer, w)
  end.
Proof.
  intros Hb Hs. rewrite (Init_decompress_dispatch w s Hs).
  destruct s; simpl; rewrite ?(Init_decompressLZMA_held _ _ _ Hb);
    try reflexivity; unfold getattr; now rewrite Hb.
Qed.

(** Classification looks at the buffer and at nothing else. *)
Lemma Init_readSignature_buffer w w' :
  _buffer (self w) = _buffer (self w') ->
  fst (Init._readSignature w) = fst (Init._readSignature w').
Proof.
  intros E. unfold Init._readSignature, bind, getattr, decode_utf8, ret, raise.
  rewrite E. repeat (case_match; simplify_eq; simpl); reflexivity.
Qed.

Lemma ScCompressionPy_decompressLZMA_held w (buffer : bytes) :
  holds w buffer ->
  ScCompressionPy._decompressLZMA w
  = (lzma_outcome (adapted little 0 buffer),
     mkWorld (mkSelf (_fp (self w)) (Some buffer) (Some (adapted little 0 buffer))) (disk w)).
Proof.
  destruct w as [[fp b fb] files]. unfold holds. simpl. intros ->.
  apply ScCompressionPy_run_decompressLZMA.
Qed.

Lemma ScCompressionPy_readSignature_held w (buffer : bytes) :
  holds w buffer -> take 3 buffer <> [x5d; x00; x00] ->
  ScCompressionPy._readSignature w = (Return NONE, w).
Proof.
  intros Hb Hm.
  assert (Hs : exists s, fst (ScCompressionPy._readSignature w) = Return s).
  { unfold ScCompressionPy._readSignature, bind, getattr, ret. rewrite Hb.
    repeat (case_match; simpl); eauto. }
  destruct Hs as [s Hs].
  rewrite (ScCompressionPy_readSignature_run w s Hs).
  destruct (ScCompressionPy_readSignature_range w s Hs) as [-> | ->]; [|reflexivity].
  exfalso. apply Hm. apply hex_magic.
  revert Hs. unfold ScCompressionPy._readSignature, bind, getattr, ret. rewrite Hb.
  destruct (str_eq (lower (hex (take 3 buffer))) (lit "5d0000")); [reflexivity|].
  repeat (case_match; simpl); discriminate.
Qed.

(** What [__init__.py] answers on a buffer that starts with [Sig:] in any
    case. *)
Lemma Init_readSignature_sig w (buffer : bytes) :
  holds w buffer -> ci_equal (take 4 buffer) "sig:" ->
  Init._readSignature w = (Return SIG, w).
Proof.
  intros Hb Hsig.
  assert (Ha4 : ascii_bytes (take 4 buffer))
    by (apply (ci_equal_ascii _ "sig:"); [repeat constructor | exact Hsig]).
  assert (E2 : take 2 buffer = take 2 (take 4 buffer)) by now rewrite take_take.
  assert (E3 : take 3 buffer = take 3 (take 4 buffer)) by now rewrite take_take.
  assert (Ha2 : ascii_bytes (take 2 buffer)) by (rewrite E2; now apply Forall_take).
  assert (Hm : str_eq (lower (hex (take 3 buffer))) (lit "5d0000") = false).
  { apply not_true_is_false. rewrite hex_magic. intros Hm.
    assert (Hl : take 3 (map (fun b => ascii_lower (ord b)) (take 4 buffer))
                 = map (fun b => ascii_lower (ord b)) [x5d; x00; x00])
      by now rewrite firstn_map, <- E3, Hm.
    rewrite Hsig in Hl. discriminate Hl. }
  assert (Hl2 : lower (map ord (take 2 buffer)) = [115; 105]).
  { rewrite (lower_ascii _ Ha2), E2, <- firstn_map. now rewrite Hsig. }
  destruct (decode_ci_equal (take 4 buffer) "sig:") as (s4 & Hd4 & Hl4);
    [repeat constructor | exact Hsig |].
  unfold Init._readSignature, bind, getattr, decode_utf8.
  rewrite Hb, Hm, (utf8_decode_ascii _ Ha2). unfold ret at 1.
  unfold str_eq at 1. rewrite Hl2.
  rewrite (bool_decide_eq_false_2 ([115; 105] = lit "sc")) by discriminate.
  rewrite Hd4. unfold ret at 1. unfold str_eq. rewrite Hl4.
  now rewrite bool_decide_eq_true_2.
Qed.

(** What [__init__.py] answers on a buffer whose first bytes are ASCII and
    match no signature. *)
Lemma Init_readSignature_none w (buffer : bytes) :
  holds w buffer ->
  take 3 buffer <> [x5d; x00; x00] ->
  ascii_bytes (take 4 buffer) ->
  ~ ci_equal (take 2 buffer) "sc" ->
  ~ ci_equal (take 4 buffer) "sig:" ->
  Init._readSignature w = (Return NONE, w).
Proof.
  intros Hb Hnm Ha4 Hsc Hsig.
  assert (E2 : take 2 buffer = take 2 (take 4 buffer)) by now rewrite take_take.
  assert (Ha2 : ascii_bytes (take 2 buffer)) by (rewrite E2; now apply Forall_take).
  assert (Hm : str_eq (lower (hex (take 3 buffer))) (lit "5d0000") = false).
  { apply not_true_is_false. now rewrite hex_magic. }
  unfold Init._readSignature, bind, getattr, decode_utf8.
  rewrite Hb, Hm, (utf8_decode_ascii _ Ha2). unfold ret at 1.
  unfold str_eq at 1. rewrite (lower_ascii _ Ha2).
  rewrite bool_decide_eq_false_2 by exact Hsc.
  rewrite (utf8_decode_ascii _ Ha4). unfold ret at 1.
  unfold str_eq. rewrite (lower_ascii _ Ha4).
  now rewrite bool_decide_eq_false_2 by exact Hsig.
Qed.

(** Every way [decompress] of [__init__.py] can go. *)
Lemma Init_decompress_cases w :
  (_buffer (self w) = None /\ Init.decompress w = (Raise AttributeError, w))
  \/ exists buffer : bytes,
       holds w buffer
       /\ (Init.decompress w = (Raise UnicodeDecodeError, w)
           \/ Init.decompress w = (Return buffer, w)
           \/ exists offset : nat,
                Init.decompress w
                = (lzma_outcome (adapted big offset buffer), adapted_world offset buffer w)).
Proof.
  destruct (_buffer (self w)) as [buffer|] eqn:Hb.
  - right. exists buffer. split; [exact Hb|].
    destruct (fst (Init._readSignature w)) as [s|e] eqn:Hs.
    + rewrite (Init_decompress_held w buffer s Hb Hs).
      destruct (offset_of s) as [offset|]; eauto.
    + rewrite (Init_readSignature_raises w buffer e Hb Hs) in Hs.
      left. now apply Init_decompress_raise.
  - left. split; [reflexivity|].
    apply Init_decompress_raise. now rewrite Init_readSignature_unset.
Qed.

(** Every way [Decompress] of [ScCompression.py] can go. *)
Lemma ScCompressionPy_Decompress_cases w :
  (_buffer (self w) = None /\ ScCompressionPy.Decompress w = (Raise AttributeError, w))
  \/ exists buffer : bytes,
       holds w buffer
       /\ (ScCompressionPy.Decompress w = (Return buffer, w)
           \/ ScCompressionPy.Decompress w
              = (lzma_outcome (adapted little 0 buffer),
                 mkWorld (mkSelf (_fp (self w)) (Some buffer)
                                 (Some (adapted little 0 buffer))) (disk w))).
Proof.
  destruct (_buffer (self w)) as [buffer|] eqn:Hb.
  - right. exists buffer. split; [exact Hb|].
    assert (Hs : exists s, fst (ScCompressionPy._readSignature w) = Return s).
    { unfold ScCompressionPy._readSignature, bind, getattr, ret. rewrite Hb.
      repeat (case_match; simpl); eauto. }
    destruct Hs as [s Hs].
    rewrite (ScCompressionPy_Decompress_dispatch w s Hs).
    destruct (ScCompressionPy_readSignature_range w s Hs) as [-> | ->].
    + right. now apply ScCompressionPy_decompressLZMA_held.
    + left. unfold getattr. now rewrite Hb.
  - left. split; [reflexivity|].
    unfold ScCompressionPy.Decompress, ScCompressionPy._readSignature, bind, getattr.
    now rewrite Hb.
Qed.

End Further.

Section Extras.
Context `{PyRuntime}.

(** X1.  Both classifiers answer [LZMA] exactly on the buffers whose first
    three bytes are [5D 00 00]. *)
Theorem X1_lzma_exactly_on_magic w (buffer : bytes) :
  holds w buffer ->
  (fst (Init._readSignature w) = Return LZMA <-> take 3 buffer = [x5d; x00; x00])
  /\ (fst (ScCompressionPy._readSignature w) = Return LZMA
      <-> take 3 buffer = [x5d; x00; x00]).
Proof.
  intros Hb. split; split.
  - rewrite <- hex_magic.
    unfold Init._readSignature, bind, getattr, decode_utf8, ret, raise. rewrite Hb.
    destruct (str_eq (lower (hex (take 3 buffer))) (lit "5d0000")); [reflexivity|].
    repeat (case_match; simplify_eq; simpl); discriminate.
  - intros Hm. now rewrite (Init_readSignature_lzma w buffer Hb Hm).
  - intros Hs.
    destruct (str_eq (lower (hex (take 3 buffer))) (lit "5d0000")) eqn:E;
      [now apply hex_magic|].
    assert (Hn : take 3 buffer <> [x5d; x00; x00]).
    { intros Hm. apply hex_magic in Hm. congruence. }
    rewrite (ScCompressionPy_readSignature_held w buffer Hb Hn) in Hs. discriminate Hs.
  - intros Hm. now rewrite (ScCompressionPy_readSignature_lzma w buffer Hb Hm).
Qed.

(** X2.  In [__init__.py] a buffer that starts with [Sig:], in any mix of
    cases, classifies as [SIG], and [decompress] gives the decoder's answer on
    the stream adapted at offset 68. *)
Theorem X2_sig_decompress w (buffer : bytes) :
  holds w buffer -> ci_equal (take 4 buffer) "sig:" ->
  Init._readSignature w = (Return SIG, w)
  /\ Init.decompress w
     = (lzma_outcome (adapted big 68 buffer), adapted_world 68 buffer w).
Proof.
  intros Hb Hsig.
  pose proof (Init_readSignature_sig w buffer Hb Hsig) as Hs.
  split; [exact Hs|].
  now rewrite (Init_decompress_held w buffer SIG Hb) by now rewrite Hs.
Qed.

(** X3.  In [__init__.py] a buffer that starts with [SC], in any mix of
    cases, and either has at most 30 bytes or carries at 26..30 ASCII bytes
    other than [SCLZ], classifies as [SC], and [decompress] gives the
    decoder's answer on the stream adapted at offset 26. *)
Theorem X3_sc_decompress w (buffer : bytes) :
  holds w buffer -> ci_equal (take 2 buffer) "sc" ->
  (length buffer <= 30)%nat
  \/ ((30 < length buffer)%nat /\ ascii_bytes (slice 26 30 buffer)
      /\ ~ ci_equal (slice 26 30 buffer) "sclz") ->
  Init._readSignature w = (Return SC, w)
  /\ Init.decompress w
     = (lzma_outcome (adapted big 26 buffer), adapted_world 26 buffer w).
Proof.
  intros Hb Hsc Hcase.
  destruct (Init_readSignature_sc w buffer Hb Hsc) as (Hshort & _ & Hlong).
  assert (Hs : Init._readSignature w = (Return SC, w)).
  { destruct Hcase as [Hl | (Hl & Ha & Hn)]; [now apply Hshort | now apply Hlong]. }
  split; [exact Hs|].
  now rewrite (Init_decompress_held w buffer SC Hb) by now rewrite Hs.
Qed.

(** X4.  In [__init__.py] a buffer of more than 30 bytes that starts with
    [SC] and spells [SCLZ] at 26..30 is handed back by [decompress] as it is,
    still compressed, without an exception and without touching anything. *)
Theorem X4_sclz_returned_as_is w (buffer : bytes) :
  holds w buffer -> ci_equal (take 2 buffer) "sc" ->
  (30 < length buffer)%nat -> ci_equal (slice 26 30 buffer) "sclz" ->
  Init._readSignature w = (Return SCLZ, w)
  /\ Init.decompress w = (Return buffer, w).
Proof.
  intros Hb Hsc Hl Hz.
  destruct (Init_readSignature_sc w buffer Hb Hsc) as (_ & Hsclz & _).
  pose proof (Hsclz Hl Hz) as Hs.
  split; [exact Hs|].
  now rewrite (Init_decompress_held w buffer SCLZ Hb) by now rewrite Hs.
Qed.

(** X5.  In [__init__.py] a buffer whose first four bytes are ASCII and are
    neither the magic [5D 00 00], nor [SC], nor [Sig:] classifies as [NONE]
    and is returned unchanged, with nothing else changed. *)
Theorem X5_plain_buffer_passes_through w (buffer : bytes) :
  holds w buffer ->
  take 3 buffer <> [x5d; x00; x00] ->
  ascii_bytes (take 4 buffer) ->
  ~ ci_equal (take 2 buffer) "sc" ->
  ~ ci_equal (take 4 buffer) "sig:" ->
  Init._readSignature w = (Return NONE, w)
  /\ Init.decompress w = (Return buffer, w).
Proof.
  intros Hb Hm Ha Hsc Hsig.
  pose proof (Init_readSignature_none w buffer Hb Hm Ha Hsc Hsig) as Hs.
  split; [exact Hs|].
  now rewrite (Init_decompress_held w buffer NONE Hb) by now rewrite Hs.
Qed.


(** X7.  [decompress] of [__init__.py] never changes the buffer or the path
    of the instance, and the only file it can create or overwrite is
    [newinsertpy.csv]. *)
Theorem X7_decompress_frame w :
  _buffer (self (snd (Init.decompress w))) = _buffer (self w)
  /\ _fp (self (snd (Init.decompress w))) = _fp (self w)
  /\ delete "newinsertpy.csv"%string (disk (snd (Init.decompress w)))
     = delete "newinsertpy.csv"%string (disk w).
Proof.
  destruct (Init_decompress_cases w) as [[_ ->] | (b & Hb & [-> | [-> | [o ->]]])];
    simpl; try (repeat split; reflexivity).
  split; [now rewrite Hb|]. split; [reflexivity|].
  apply delete_insert_eq.
Qed.

(** X8.  [Decompress] and [DecompressToStr] of [ScCompression.py] never
    change the files, the buffer or the path of the instance. *)
Theorem X8_Decompress_frame w :
  disk (snd (ScCompressionPy.Decompress w)) = disk w
  /\ _buffer (self (snd (ScCompressionPy.Decompress w))) = _buffer (self w)
  /\ _fp (self (snd (ScCompressionPy.Decompress w))) = _fp (self w)
  /\ snd (ScCompressionPy.DecompressToStr w) = snd (ScCompressionPy.Decompress w).
Proof.
  assert (Hstr : snd (ScCompressionPy.DecompressToStr w) = snd (ScCompressionPy.Decompress w)).
  { unfold ScCompressionPy.DecompressToStr, bind, decode_utf8.
    destruct (ScCompressionPy.Decompress w) as [[out|e] w']; [|reflexivity].
    now destruct (utf8_decode out). }
  destruct (ScCompressionPy_Decompress_cases w) as [[_ E] | (b & Hb & [E | E])];
    rewrite E in *; simpl; repeat split; try assumption; now rewrite ?Hb.
Qed.

(** X9.  Calling [decompress] of [__init__.py] a second time gives the same
    result and leaves the instance and the files as the first call left
    them. *)
Theorem X9_decompress_repeatable w :
  Init.decompress (snd (Init.decompress w)) = Init.decompress w.
Proof.
  destruct (_buffer (self w)) as [b|] eqn:Hb.
  - destruct (fst (Init._readSignature w)) as [s|e] eqn:Hs.
    + rewrite (Init_decompress_held w b s Hb Hs).
      destruct (offset_of s) as [o|] eqn:Ho; simpl.
      * assert (Hs' : fst (Init._readSignature (adapted_world o b w)) = Return s).
        { rewrite <- Hs. apply Init_readSignature_buffer. simpl. now rewrite Hb. }
        rewrite (Init_decompress_held (adapted_world o b w) b s eq_refl Hs'), Ho.
        f_equal. unfold adapted_world. simpl. f_equal. apply insert_insert_eq.
      * now rewrite (Init_decompress_held w b s Hb Hs), Ho.
    + rewrite (Init_decompress_raise w e Hs). simpl.
      apply (Init_decompress_raise w e Hs).
  - assert (E : Init.decompress w = (Raise AttributeError, w)).
    { apply Init_decompress_raise. now rewrite Init_readSignature_unset. }
    rewrite E. simpl. exact E.
Qed.

(** X10.  When the constructor of [__init__.py] returns, the instance holds
    a buffer, the contents of the file when a path was given and the non-empty
    buffer argument otherwise, and the files are as they were. *)
Theorem X10_constructed_instance (fp : string) (buffer : bytes) files :
  fst (Init.__init__ fp buffer (start files)) = Return tt ->
  exists held : bytes,
    snd (Init.__init__ fp buffer (start files))
    = mkWorld (mkSelf (if String.eqb fp EmptyString then None else Some fp)
                      (Some held) None) files
    /\ (if String.eqb fp EmptyString
        then held = buffer /\ buffer <> []
        else files !! fp = Some held).
Proof.
  unfold Init.__init__, bind, set_fp, read_file, set_buffer, raise, start.
  destruct (String.eqb fp EmptyString); simpl.
  - case_bool_decide as Hb; simpl; [discriminate|].
    intros _. exists buffer. now repeat split.
  - destruct (files !! fp) as [content|] eqn:Hf; simpl; [|discriminate].
    intros _. exists content. now split.
Qed.

(** X12.  The constructor of [ScCompression.py] called without a path and
    without a buffer returns an instance with no attribute at all, and each
    of its public methods then raises [AttributeError] and writes nothing. *)
Theorem X12_unbuilt_instance (fp : string) files :
  ScCompressionPy.__init__ EmptyString [] (start files) = (Return tt, start files)
  /\ ScCompressionPy.Decompress (start files) = (Raise AttributeError, start files)
  /\ ScCompressionPy.DecompressToStr (start files) = (Raise AttributeError, start files)
  /\ ScCompressionPy.DecompressToFile fp (start files)
     = (Raise AttributeError, start files).
Proof. split; [|split; [|split]]; reflexivity. Qed.

(** X13.  [_decompressSC] and [_decompressSIG] of [ScCompression.py] do
    exactly what its [_decompressLZMA] does: the slice they store in
    [_formattedbuffer] is overwritten before it is read, so no header is
    skipped. *)
Theorem X13_header_not_stripped w :
  ScCompressionPy._decompressSC w = ScCompressionPy._decompressLZMA w
  /\ ScCompressionPy._decompressSIG w = ScCompressionPy._decompressLZMA w.
Proof.
  destruct w as [[fp [b|] fb] files].
  - unfold ScCompressionPy._decompressSC, ScCompressionPy._decompressSIG,
      bind, getattr, set_formattedbuffer.
    cbn [self _buffer _fp _formattedbuffer disk].
    now rewrite !ScCompressionPy_run_decompressLZMA.
  - split; reflexivity.
Qed.

(** X14.  On every instance the adapt step of [__init__.py] at offset 0 and
    the adapt step of [ScCompression.py] leave the same attributes, the same
    stream among them: reading the size big-endian or little-endian makes no
    difference.  Whenever the first returns a value the second returns that
    value, and when the first raises [LZMAError] so does the second. *)
Theorem X14_lzma_paths_agree w :
  self (snd (Init._decompressLZMA 0 w)) = self (snd (ScCompressionPy._decompressLZMA w))
  /\ (forall out, fst (Init._decompressLZMA 0 w) = Return out ->
      fst (ScCompressionPy._decompressLZMA w) = Return out)
  /\ (fst (Init._decompressLZMA 0 w) = Raise LZMAError ->
      fst (ScCompressionPy._decompressLZMA w) = Raise LZMAError).
Proof.
  destruct w as [[fp [b|] fb] files].
  - rewrite Init_run_decompressLZMA, ScCompressionPy_run_decompressLZMA. simpl.
    rewrite adapted_order. now repeat split.
  - split; [reflexivity|]. split; [discriminate | discriminate].
Qed.

(** X15.  The stream built by the adapt step of [__init__.py] is
    [buffer[offset:]] with four bytes inserted after the stored header: it is
    four bytes longer, and cutting the four bytes out gives [buffer[offset:]]
    back. *)
Theorem X15_pad_removal (offset : nat) w (buffer : bytes) :
  holds w buffer ->
  exists stream : bytes,
    _formattedbuffer (self (snd (Init._decompressLZMA offset w))) = Some stream
    /\ length stream = (length (drop offset buffer) + 4)%nat
    /\ take (length (slice offset (9 + offset) buffer)) stream
       ++ drop (length (slice offset (9 + offset) buffer) + 4) stream
       = drop offset buffer.
Proof.
  intros Hb. exists (adapted big offset buffer).
  rewrite (Init_decompressLZMA_held offset w buffer Hb).
  split; [reflexivity|].
  unfold adapted.
  set (head := slice offset (9 + offset) buffer).
  set (pad := size_pad _).
  assert (Hp : length pad = 4%nat) by apply size_pad_length.
  assert (Hd : head ++ drop (9 + offset) buffer = drop offset buffer).
  { subst head. unfold slice. replace (9 + offset - offset)%nat with 9%nat by lia.
    replace (9 + offset)%nat with (offset + 9)%nat by lia.
    rewrite <- drop_drop. apply take_drop. }
  split.
  - rewrite <- Hd, !length_app. lia.
  - rewrite take_app_length.
    rewrite app_assoc, drop_app_length' by (rewrite length_app; lia).
    exact Hd.
Qed.


(** X18.  [Decompress] of [ScCompression.py] returns unchanged every buffer
    that does not start with [5D 00 00], containers with an [SC] or [Sig:]
    header included, and changes nothing. *)
Theorem X18_legacy_passthrough w (buffer : bytes) :
  holds w buffer -> take 3 buffer <> [x5d; x00; x00] ->
  ScCompressionPy.Decompress w = (Return buffer, w).
Proof.
  intros Hb Hm.
  pose proof (ScCompressionPy_readSignature_held w buffer Hb Hm) as Hs.
  rewrite (ScCompressionPy_Decompress_dispatch w NONE) by now rewrite Hs.
  unfold getattr. now rewrite Hb.
Qed.

(** X19.  When the buffer ends before the size field, that is within
    [offset + 5] bytes, the adapt step of [__init__.py] raises nothing and
    hands the decoder what is left of the buffer after the offset followed by
    four zero bytes. *)
Theorem X19_short_container (offset : nat) w (buffer : bytes) :
  holds w buffer -> (length buffer <= 5 + offset)%nat ->
  fst (Init._decompressLZMA offset w)
  = lzma_outcome (drop offset buffer ++ [x00; x00; x00; x00])
  /\ _formattedbuffer (self (snd (Init._decompressLZMA offset w)))
     = Some (drop offset buffer ++ [x00; x00; x00; x00]).
Proof.
  intros Hb Hl.
  assert (E : adapted big offset buffer = drop offset buffer ++ [x00; x00; x00; x00]).
  { unfold adapted, slice.
    rewrite (drop_ge buffer (5 + offset)) by exact Hl.
    rewrite (drop_ge buffer (9 + offset)) by lia.
    rewrite take_nil, int_from_bytes_empty, app_nil_r.
    rewrite take_ge by (rewrite length_drop; lia).
    reflexivity. }
  rewrite (Init_decompressLZMA_held offset w buffer Hb). simpl.
  now rewrite E.
Qed.

(** X20.  At every offset the four bytes the adapt step of [__init__.py]
    inserts are [FF FF FF FF] exactly when at least one byte of the size
    field is present and every byte present is [FF]; otherwise they are
    [00 00 00 00]. *)
Theorem X20_pad_choice (offset : nat) w (buffer : bytes) :
  holds w buffer ->
  exists pad : bytes,
    _formattedbuffer (self (snd (Init._decompressLZMA offset w)))
    = Some (slice offset (9 + offset) buffer ++ pad ++ drop (9 + offset) buffer)
    /\ (pad = [xff; xff; xff; xff] \/ pad = [x00; x00; x00; x00])
    /\ (pad = [xff; xff; xff; xff]
        <-> slice (5 + offset) (9 + offset) buffer <> []
            /\ Forall (eq xff) (slice (5 + offset) (9 + offset) buffer)).
Proof.
  intros Hb.
  exists (size_pad (int_from_bytes (slice (5 + offset) (9 + offset) buffer) big true)).
  rewrite (Init_decompressLZMA_held offset w buffer Hb). simpl.
  split; [reflexivity|].
  rewrite <- (int_from_bytes_minus_one _ big).
  unfold size_pad.
  destruct (int_from_bytes _ big true =? -1) eqn:E.
  - apply Z.eqb_eq in E. split; [now left|]. now split.
  - apply Z.eqb_neq in E. split; [now right|]. split; [discriminate | contradiction].
Qed.

End Extras.

(** ** Instances of the further properties *)

#[local] Existing Instance sample_runtime.

(** The magic followed by one byte. *)
Lemma X1_witness :
  let buffer := [x5d; x00; x00; x04] in
  let w := holding buffer ∅ in
  holds w buffer
  /\ fst (Init._readSignature w) = Return LZMA
  /\ fst (ScCompressionPy._readSignature w) = Return LZMA.
Proof.
  intros buffer w.
  destruct (X1_lzma_exactly_on_magic w buffer eq_refl) as [Hi Hp].
  split; [reflexivity|].
  split; [exact (proj2 Hi eq_refl) | exact (proj2 Hp eq_refl)].
Defined.

(** [sIG:], 64 header bytes, then a payload whose size field is 3. *)
Lemma X2_witness :
  let buffer := [x73; x49; x47; x3a] ++ repeat x00 64
                ++ [x5d; x00; x00; x04; x00; x03; x00; x00; x00; x61; x62; x63] in
  let w := holding buffer ∅ in
  holds w buffer /\ ci_equal (take 4 buffer) "sig:"
  /\ Init._readSignature w = (Return SIG, w)
  /\ fst (Init.decompress w) = Return [x61; x62; x63].
Proof.
  intros buffer w.
  assert (Hc : ci_equal (take 4 buffer) "sig:") by reflexivity.
  destruct (X2_sig_decompress w buffer eq_refl Hc) as [Hs Hd].
  split; [reflexivity|]. split; [exact Hc|]. split; [exact Hs|].
  exact (eq_trans (f_equal fst Hd) eq_refl).
Defined.

(** [sC], 24 header bytes, then the same payload: 38 bytes in all. *)
Lemma X3_witness :
  let buffer := [x73; x43] ++ repeat x00 24
                ++ [x5d; x00; x00; x04; x00; x03; x00; x00; x00; x61; x62; x63] in
  let w := holding buffer ∅ in
  holds w buffer /\ ci_equal (take 2 buffer) "sc"
  /\ (30 < length buffer)%nat
  /\ ascii_bytes (slice 26 30 buffer)
  /\ ~ ci_equal (slice 26 30 buffer) "sclz"
  /\ Init._readSignature w = (Return SC, w)
  /\ fst (Init.decompress w) = Return [x61; x62; x63].
Proof.
  intros buffer w.
  assert (Hc : ci_equal (take 2 buffer) "sc") by reflexivity.
  assert (Hl : (30 < length buffer)%nat) by (simpl; lia).
  assert (Ha : ascii_bytes (slice 26 30 buffer)) by (repeat constructor).
  assert (Hn : ~ ci_equal (slice 26 30 buffer) "sclz") by discriminate.
  destruct (X3_sc_decompress w buffer eq_refl Hc (or_intror (conj Hl (conj Ha Hn))))
    as [Hs Hd].
  repeat (split; [assumption || reflexivity|]).
  exact (eq_trans (f_equal fst Hd) eq_refl).
Defined.

(** [SC], 24 header bytes, [sClz] and one more byte: 31 bytes in all. *)
Lemma X4_witness :
  let buffer := [x53; x43] ++ repeat x00 24 ++ [x73; x43; x6c; x7a; x2a] in
  let w := holding buffer ∅ in
  holds w buffer /\ ci_equal (take 2 buffer) "sc"
  /\ (30 < length buffer)%nat /\ ci_equal (slice 26 30 buffer) "sclz"
  /\ Init.decompress w = (Return buffer, w).
Proof.
  intros buffer w.
  assert (Hc : ci_equal (take 2 buffer) "sc") by reflexivity.
  assert (Hl : (30 < length buffer)%nat) by (simpl; lia).
  assert (Hz : ci_equal (slice 26 30 buffer) "sclz") by reflexivity.
  destruct (X4_sclz_returned_as_is w buffer eq_refl Hc Hl Hz) as [_ Hd].
  repeat (split; [assumption || reflexivity|]).
  exact Hd.
Defined.

(** The five bytes [hello]. *)
Lemma X5_witness :
  let buffer := [x68; x65; x6c; x6c; x6f] in
  let w := holding buffer ∅ in
  holds w buffer /\ take 3 buffer <> [x5d; x00; x00]
  /\ ascii_bytes (take 4 buffer)
  /\ ~ ci_equal (take 2 buffer) "sc" /\ ~ ci_equal (take 4 buffer) "sig:"
  /\ Init.decompress w = (Return buffer, w).
Proof.
  intros buffer w.
  assert (Hm : take 3 buffer <> [x5d; x00; x00]) by discriminate.
  assert (Ha : ascii_bytes (take 4 buffer)) by (repeat constructor).
  assert (Hsc : ~ ci_equal (take 2 buffer) "sc") by discriminate.
  assert (Hsig : ~ ci_equal (take 4 buffer) "sig:") by discriminate.
  destruct (X5_plain_buffer_passes_through w buffer eq_refl Hm Ha Hsc Hsig) as [_ Hd].
  repeat (split; [assumption || reflexivity|]).
  exact Hd.
Defined.


(** A one-byte buffer and no path. *)
Lemma X10_witness :
  fst (Init.__init__ EmptyString [x41] (start ∅)) = Return tt
  /\ exists held : bytes,
       snd (Init.__init__ EmptyString [x41] (start ∅))
       = mkWorld (mkSelf None (Some held) None) ∅
       /\ held = [x41] /\ [x41] <> ([] : bytes).
Proof.
  split; [reflexivity|].
  exact (X10_constructed_instance EmptyString [x41] ∅ eq_refl).
Defined.

(** Twelve bytes on which the sample decoder returns, in both modules. *)
Lemma X14_witness :
  let w := holding [x5d; x00; x00; x04; x00; x03; x00; x00; x00; x61; x62; x63] ∅ in
  fst (Init._decompressLZMA 0 w) = Return [x61; x62; x63]
  /\ fst (ScCompressionPy._decompressLZMA w) = Return [x61; x62; x63].
Proof.
  intros w.
  assert (Hi : fst (Init._decompressLZMA 0 w) = Return [x61; x62; x63]) by reflexivity.
  destruct (X14_lzma_paths_agree w) as (_ & Hr & _).
  split; [exact Hi | exact (Hr _ Hi)].
Defined.

(** Ten bytes adapted at offset 0. *)
Lemma X15_witness :
  let buffer := [x5d; x00; x00; x04; x00; x03; x00; x00; x00; x2a] in
  let w := holding buffer ∅ in
  holds w buffer
  /\ exists stream : bytes,
       _formattedbuffer (self (snd (Init._decompressLZMA 0 w))) = Some stream
       /\ length stream = 14%nat
       /\ take 9 stream ++ drop 13 stream = buffer.
Proof.
  intros buffer w. split; [reflexivity|].
  exact (X15_pad_removal 0 w buffer eq_refl).
Defined.


(** An Sc container, which the second module hands back untouched. *)
Lemma X18_witness :
  let buffer := [x53; x43] ++ repeat x00 24
                ++ [x5d; x00; x00; x04; x00; x03; x00; x00; x00; x61; x62; x63] in
  let w := holding buffer ∅ in
  holds w buffer /\ take 3 buffer <> [x5d; x00; x00]
  /\ ScCompressionPy.Decompress w = (Return buffer, w).
Proof.
  intros buffer w.
  assert (Hm : take 3 buffer <> [x5d; x00; x00]) by discriminate.
  split; [reflexivity|]. split; [exact Hm|].
  exact (X18_legacy_passthrough w buffer eq_refl Hm).
Defined.

(** The two bytes [SC] adapted at offset 26: nothing is left after the
    offset. *)
Lemma X19_witness :
  let buffer := [x53; x43] in
  let w := holding buffer ∅ in
  holds w buffer /\ (length buffer <= 5 + 26)%nat
  /\ _formattedbuffer (self (snd (Init._decompressLZMA 26 w)))
     = Some [x00; x00; x00; x00].
Proof.
  intros buffer w.
  assert (Hl : (length buffer <= 5 + 26)%nat) by (simpl; lia).
  split; [reflexivity|]. split; [exact Hl|].
  exact (proj2 (X19_short_container 26 w buffer eq_refl Hl)).
Defined.

(** One byte [FF] of the size field present. *)
Lemma X20_witness :
  let buffer := [x5d; x00; x00; x04; x00; xff] in
  let w := holding buffer ∅ in
  holds w buffer
  /\ exists pad : bytes,
       _formattedbuffer (self (snd (Init._decompressLZMA 0 w)))
       = Some (slice 0 9 buffer ++ pad ++ drop 9 buffer)
       /\ (pad = [xff; xff; xff; xff] \/ pad = [x00; x00; x00; x00]).
Proof.
  intros buffer w. split; [reflexivity|].
  destruct (X20_pad_choice 0 w buffer eq_refl) as (pad & Hf & Hc & _).
  exists pad. split; [exact Hf | exact Hc].
Defined.
